(** * Double-entry ledger of the multi-company accounting application

    A shallow embedding of [src/app.py] as the file is written: the
    class [MultiCompanyAccounting], the pages and [main], followed by
    the properties of posting, reporting and resetting.

    What decides the behaviour of the program.  [setup_session_state]
    stores the registry of companies in [st.session_state.companies].
    Every method and every page reads it as [self.companies]
    ([accounting.companies] in the pages).  No line of the file binds
    an attribute of that name: [__init__] only calls
    [setup_session_state], the class has no class attribute, property
    or [__getattr__].  The lookup therefore raises [AttributeError]
    wherever it is evaluated, and the code that would follow it is never
    run.  The embedding keeps that: the lookup is [self_companies], it
    raises and has no value.

    Modelling conventions.

    - A Python [Decimal] amount is counted in hundredths:
      [Decimal('1200.00')] is [120000].  The only arithmetic that the
      program ever performs on amounts is the two sums and the
      comparison at the head of the method [record_transaction].  They
      are taken exact, where [Decimal] rounds a sum to 28 significant
      digits; the method returns the same flag and leaves the same
      state whichever way the comparison goes.
    - A dict used as a map is a [gmap].
    - The state is the registry held by the session.  A method or page
      is a function from the registry to an outcome, which is a value
      or a raised exception, and the registry it leaves behind.
    - Messages sent to the page ([st.error], [st.success]) and drawing
      are not part of the state and are left out.
    - [st.selectbox] and [st.radio] build the labels of their options
      when the widget is created, by calling [format_func] on each
      option in turn.  A page whose selector of companies has a
      [format_func] that reads [accounting.companies] raises there. *)

From Stdlib Require Import ZArith QArith Ascii.
From stdpp Require Import gmap strings list fin_maps.

Local Open Scope string_scope.
Local Open Scope list_scope.
Local Open Scope Z_scope.

(** ** Data *)

Abbreviation Decimal := Z.

(** The values of the ["type"] key. *)
Inductive account_type := asset | liability | equity | income | expense.

#[global] Instance account_type_eq_dec : EqDecision account_type.
Proof. solve_decision. Defined.

(** One value of the accounts dict: [{"name": .., "type": .., "balance": ..}]. *)
Record ledger_account := Account {
  acct_name : string;
  acct_type : account_type;
  balance : Decimal
}.

(** One line of a posting: [{"account": code}] with the optional keys
    ["debit"] and ["credit"]. *)
Record entry := Entry {
  account : string;
  debit : option Decimal;
  credit : option Decimal
}.

Record date := Date { year : Z; month : Z; day : Z }.

(** One record of the log; [tx_id] is its ["id"], [tx_date] its ["date"]. *)
Record transaction := Transaction {
  tx_id : nat;
  tx_date : date;
  description : string;
  entries : list entry;
  vat_rate : Q
}.

Record company := Company {
  name : string;
  transactions : list transaction;
  accounts : gmap string ledger_account;
  color : string
}.

Abbreviation registry := (gmap string company).

(** A Python float.  [float d] stands for the expression [float(d)] as
    it is written at line 170, the binary value is not computed: no
    float is ever made by the program, every expression that makes one
    stands behind a lookup that raises, and no statement below speaks
    of one. *)
Inductive pyfloat := float (d : Decimal).

(** The dict that [generate_balance_sheet] returns. *)
Record balance_sheet := BalanceSheet {
  sheet_assets : pyfloat;
  sheet_liabilities : pyfloat;
  sheet_equity : pyfloat;
  sheet_check : bool
}.

(** One row of the data frame of [get_transaction_history]. *)
Record history_row := HistoryRow {
  row_date : date;
  row_description : string;
  row_account : string;
  row_debit : pyfloat;
  row_credit : pyfloat;
  row_company : string
}.

(** ** Exceptions and state *)

(** The one exception that the program raises. *)
Inductive exception : Set := AttributeError.

Inductive outcome (A : Type) : Type :=
  | Returns (a : A)
  | Raises (e : exception).
Arguments Returns {A} a.
Arguments Raises {A} e.

(** A computation on the registry of the session. *)
Definition M (A : Type) : Type := registry → outcome A * registry.

Definition ret {A} (a : A) : M A := λ reg, (Returns a, reg).

Definition raise {A} (e : exception) : M A := λ reg, (Raises e, reg).

(** Sequencing: an exception ends the computation, and the registry is
    the one reached when it was raised. *)
Definition bind {A B} (m : M A) (k : A → M B) : M B :=
  λ reg, match m reg with
         | (Returns a, reg') => k a reg'
         | (Raises e, reg') => (Raises e, reg')
         end.

Notation "x <- m ;; k" := (bind m (λ x, k))
  (at level 100, m at next level, right associativity).

(** [try: m  except Exception as e: h e] *)
Definition try_except {A} (m : M A) (h : exception → M A) : M A :=
  λ reg, match m reg with
         | (Returns a, reg') => (Returns a, reg')
         | (Raises e, reg') => h e reg'
         end.

(** What follows a value that cannot exist. *)
Definition unreachable {A} (v : Empty_set) : A := match v with end.

(** ** The class *)

(** An instance of [MultiCompanyAccounting]: an object without any
    attribute of its own. *)
Inductive MultiCompanyAccounting : Set := Accounting.

(** ** The chart of accounts *)

Definition chart_rows : list (string * ledger_account) :=
  [ ("1000", Account "Cash" asset 0);
    ("1100", Account "Accounts Receivable" asset 0);
    ("1200", Account "Inventory" asset 0);
    ("1500", Account "Equipment" asset 0);
    ("1600", Account "Vehicles" asset 0);
    ("2000", Account "Accounts Payable" liability 0);
    ("2100", Account "VAT Payable" liability 0);
    ("2500", Account "Bank Loan" liability 0);
    ("2600", Account "Credit Card" liability 0);
    ("3000", Account "Owner's Capital" equity 0);
    ("3900", Account "Retained Earnings" equity 0);
    ("3950", Account "Current Year Earnings" equity 0);
    ("4000", Account "Product Sales" income 0);
    ("4100", Account "Service Revenue" income 0);
    ("4200", Account "Consulting Income" income 0);
    ("5000", Account "Cost of Goods Sold" expense 0);
    ("5100", Account "Salary Expense" expense 0);
    ("5200", Account "Rent Expense" expense 0);
    ("5300", Account "Utilities Expense" expense 0);
    ("5400", Account "Marketing Expense" expense 0);
    ("5500", Account "Office Supplies" expense 0);
    ("5600", Account "Travel Expense" expense 0);
    ("5700", Account "Professional Fees" expense 0) ].

Definition create_chart_of_accounts : gmap string ledger_account :=
  list_to_map chart_rows.

(** [setup_session_state]: the registry is created only when the session
    does not hold one yet. *)
Definition setup_session_state (session : option registry) : registry :=
  match session with
  | Some companies => companies
  | None =>
      <["company_1" := Company "Tech Solutions Ltd" [] create_chart_of_accounts "#1E88E5"]>
      (<["company_2" := Company "Consulting Partners Ltd" [] create_chart_of_accounts "#FF6B00"]> ∅)
  end.

(** [MultiCompanyAccounting()]: [__init__] calls [setup_session_state]
    and binds nothing on the instance. *)
Definition MultiCompanyAccounting_init (session : option registry)
    : MultiCompanyAccounting * registry :=
  (Accounting, setup_session_state session).

(** [self.companies]: the instance has no such attribute, so the lookup
    raises [AttributeError]; it has no value. *)
Definition self_companies (self : MultiCompanyAccounting) : M Empty_set :=
  raise AttributeError.

(** ** The method [record_transaction] *)

(** [sum(Decimal(str(entry.get("debit", 0))) for entry in entries)] *)
Definition total_debits (es : list entry) : Decimal :=
  foldr (λ e s, default 0 (debit e) + s) 0 es.

(** [sum(Decimal(str(entry.get("credit", 0))) for entry in entries)] *)
Definition total_credits (es : list entry) : Decimal :=
  foldr (λ e s, default 0 (credit e) + s) 0 es.

(** Lines 104-138.  With unequal totals the method returns [False] at
    line 111.  Otherwise the first thing evaluated is [self.companies]:
    at line 116 in the first turn of the loop, or at line 125 when the
    list is empty.  The lookup raises, the handler of line 136 catches
    the exception and returns [False].  Lines 117-134 are behind the
    lookup. *)
Definition record_transaction (self : MultiCompanyAccounting) (company_id : string)
    (d : date) (desc : string) (es : list entry) (vat : Q) : M bool :=
  try_except
    (if negb (total_debits es =? total_credits es) then ret false
     else companies <- self_companies self ;; unreachable companies)
    (λ e, ret false).

(** ** The reporting methods *)

(** Line 144: the iterable of the generator, [self.companies[..]], is
    evaluated when [sum] is called. *)
Definition get_account_balance (self : MultiCompanyAccounting) (company_id : string)
    (ty : account_type) : M Decimal :=
  companies <- self_companies self ;; unreachable companies.

(** Lines 168-170.  The call of line 168 raises; the second call, the
    subtraction and the conversion are behind it. *)
Definition calculate_net_income (self : MultiCompanyAccounting) (company_id : string)
    : M pyfloat :=
  revenue <- get_account_balance self company_id income ;;
  expenses <- get_account_balance self company_id expense ;;
  ret (float (revenue - expenses)).

(** Lines 150-164: the three totals, the net income, then the assignment
    of line 156, whose target is reached through [self.companies]; the
    addition to the equity and the returned dict are behind it.  The
    call of line 150 raises already. *)
Definition generate_balance_sheet (self : MultiCompanyAccounting) (company_id : string)
    : M balance_sheet :=
  assets <- get_account_balance self company_id asset ;;
  liabilities <- get_account_balance self company_id liability ;;
  equity0 <- get_account_balance self company_id equity ;;
  net_income <- calculate_net_income self company_id ;;
  companies <- self_companies self ;;
  unreachable companies.

(** Line 175: the loop runs over [self.companies[..]["transactions"]]. *)
Definition get_transaction_history (self : MultiCompanyAccounting) (company_id : string)
    : M (list history_row) :=
  companies <- self_companies self ;; unreachable companies.

(** ** The pages

    Each page reads [accounting.companies] before it does anything
    else with the registry or with what the user entered.  Of what the
    user chose or pressed, the embedding keeps the company of the two
    reports, which selects the line of the first read, and the two reset
    buttons. *)

(** Line 227: [company = accounting.companies[company_id]]. *)
Definition show_dashboard (accounting : MultiCompanyAccounting) : M unit :=
  companies <- self_companies accounting ;; unreachable companies.

(** The page function [record_transaction], lines 301-305: the labels of
    the company selector are [accounting.companies[x]["name"]]. *)
Definition record_transaction_page (accounting : MultiCompanyAccounting) : M unit :=
  companies <- self_companies accounting ;; unreachable companies.

(** Line 399, in the first turn of the loop, for the choice
    ["Consolidated"]; line 428 for one company:
    [company = accounting.companies[..]] either way. *)
Definition show_balance_sheet (accounting : MultiCompanyAccounting)
    (company_choice : string) : M unit :=
  if bool_decide (company_choice = "Consolidated") then
    companies <- self_companies accounting ;; unreachable companies
  else
    companies <- self_companies accounting ;; unreachable companies.

(** Line 465, in the first turn of the loop, for the choice
    ["Consolidated"]; line 487 for one company:
    [company = accounting.companies[..]] either way. *)
Definition show_income_statement (accounting : MultiCompanyAccounting)
    (company_choice : string) : M unit :=
  if bool_decide (company_choice = "Consolidated") then
    companies <- self_companies accounting ;; unreachable companies
  else
    companies <- self_companies accounting ;; unreachable companies.

(** Lines 386-387: the labels of the radio of companies are
    [accounting.companies[x]["name"] if x in accounting.companies else x];
    the choice of the report and the two report pages are behind it. *)
Definition show_financial_reports (accounting : MultiCompanyAccounting) : M unit :=
  companies <- self_companies accounting ;; unreachable companies.

(** Lines 511-516: the labels of the company selector, computed as in
    [show_financial_reports]; the calls of [get_transaction_history]
    (lines 519-523) are behind it. *)
Definition show_transaction_history (accounting : MultiCompanyAccounting) : M unit :=
  companies <- self_companies accounting ;; unreachable companies.

(** Line 558: the value of the name field is
    [accounting.companies["company_1"]["name"]].  The assignment of the
    name (line 559) and the two reset buttons with their assignments
    (lines 579-590) are behind it, whether a button is pressed or not. *)
Definition show_company_settings (accounting : MultiCompanyAccounting)
    (reset_1 reset_2 : bool) : M unit :=
  companies <- self_companies accounting ;; unreachable companies.

(** [main]: the instance is made, which sets up the session, and the
    page of the chosen module is shown. *)
Definition main (session : option registry) (app_mode : string)
    (reset_1 reset_2 : bool) : outcome unit * registry :=
  let '(accounting, reg) := MultiCompanyAccounting_init session in
  (if bool_decide (app_mode = "Dashboard") then show_dashboard accounting
   else if bool_decide (app_mode = "Record Transaction") then
     record_transaction_page accounting
   else if bool_decide (app_mode = "Financial Reports") then
     show_financial_reports accounting
   else if bool_decide (app_mode = "Transaction History") then
     show_transaction_history accounting
   else if bool_decide (app_mode = "Company Settings") then
     show_company_settings accounting reset_1 reset_2
   else ret tt) reg.

(** The modules that the side bar offers. *)
Definition app_modes : list string :=
  [ "Dashboard"; "Record Transaction"; "Financial Reports";
    "Transaction History"; "Company Settings" ].

(** ** Runs *)

(** The registry of a new session. *)
Definition fresh : registry := setup_session_state None.

(** What the application can be asked to do. *)
Inductive call :=
  | call_record_transaction (company_id : string) (d : date) (desc : string)
      (es : list entry) (vat : Q)
  | call_get_account_balance (company_id : string) (ty : account_type)
  | call_calculate_net_income (company_id : string)
  | call_generate_balance_sheet (company_id : string)
  | call_get_transaction_history (company_id : string)
  | call_main (app_mode : string) (reset_1 reset_2 : bool).

(** The registry that a call leaves behind. *)
Definition state_after (c : call) (reg : registry) : registry :=
  match c with
  | call_record_transaction cid d desc es vat =>
      (record_transaction Accounting cid d desc es vat reg).2
  | call_get_account_balance cid ty => (get_account_balance Accounting cid ty reg).2
  | call_calculate_net_income cid => (calculate_net_income Accounting cid reg).2
  | call_generate_balance_sheet cid => (generate_balance_sheet Accounting cid reg).2
  | call_get_transaction_history cid => (get_transaction_history Accounting cid reg).2
  | call_main app_mode reset_1 reset_2 => (main (Some reg) app_mode reset_1 reset_2).2
  end.

(** The registries that the application can reach from a new session. *)
Inductive reachable : registry → Prop :=
  | reach_fresh : reachable fresh
  | reach_call reg c : reachable reg → reachable (state_after c reg).

(** The arguments of one call of the method [record_transaction]. *)
Record posting := Posting {
  p_company : string;
  p_date : date;
  p_description : string;
  p_entries : list entry;
  p_vat_rate : Q
}.

Definition post (self : MultiCompanyAccounting) (p : posting) : M bool :=
  record_transaction self (p_company p) (p_date p) (p_description p)
    (p_entries p) (p_vat_rate p).

(** The flag that a call of the method hands to its caller. *)
Definition flag (o : outcome bool) : bool :=
  match o with Returns b => b | Raises _ => false end.

(** The postings of [ps] made one after the other, with the flag each
    call returned. *)
Fixpoint post_all (self : MultiCompanyAccounting) (reg : registry) (ps : list posting)
    : list bool * registry :=
  match ps with
  | [] => ([], reg)
  | p :: ps' =>
      let '(o, reg1) := post self p reg in
      let '(oks, reg2) := post_all self reg1 ps' in
      (flag o :: oks, reg2)
  end.

(** [n] calls of [generate_balance_sheet] one after the other, each with
    its outcome. *)
Fixpoint balance_sheets (n : nat) (self : MultiCompanyAccounting) (company_id : string)
    (reg : registry) : list (outcome balance_sheet) * registry :=
  match n with
  | O => ([], reg)
  | S n' =>
      let '(o, reg1) := generate_balance_sheet self company_id reg in
      let '(os, reg2) := balance_sheets n' self company_id reg1 in
      (o :: os, reg2)
  end.

(** ** Vocabulary of the statements *)

(** The sum of the balances of the accounts of class [ty] in an accounts
    dict. *)
Definition class_total (ty : account_type) (accts : gmap string ledger_account) : Decimal :=
  map_fold (λ _ a s, if decide (acct_type a = ty) then balance a + s else s) 0 accts.

(** The sum of the five class totals. *)
Definition signed_sum (accts : gmap string ledger_account) : Decimal :=
  class_total asset accts + class_total liability accts + class_total equity accts
  + class_total income accts + class_total expense accts.

(** The accounting equation on stored balances:
    Assets = Liabilities + Equity + (Income - Expenses). *)
Definition accounting_equation (accts : gmap string ledger_account) : Prop :=
  class_total asset accts
  = class_total liability accts + class_total equity accts
    + (class_total income accts - class_total expense accts).

(** The stored balance of one account and the length of one log. *)
Definition bal (reg : registry) (cid code : string) : option Decimal :=
  c ← reg !! cid; a ← accounts c !! code; Some (balance a).

Definition log_length (reg : registry) (cid : string) : option nat :=
  c ← reg !! cid; Some (length (transactions c)).

(** Code, name and class of every account, without the balances. *)
Definition chart_of (accts : gmap string ledger_account)
    : gmap string (string * account_type) :=
  (λ a, (acct_name a, acct_type a)) <$> accts.

(** An accounts dict with the codes, names and classes of the seed. *)
Definition standard_chart (accts : gmap string ledger_account) : Prop :=
  chart_of accts = chart_of create_chart_of_accounts.

#[global] Instance standard_chart_dec accts : Decision (standard_chart accts).
Proof. unfold standard_chart. apply _. Defined.

(** The class that the comments of [create_chart_of_accounts] give to a
    code by its leading digit. *)
Definition class_of_code (code : string) : option account_type :=
  match code with
  | String "1"%char _ => Some asset
  | String "2"%char _ => Some liability
  | String "3"%char _ => Some equity
  | String "4"%char _ => Some income
  | String "5"%char _ => Some expense
  | _ => None
  end.

(** An entry with neither or both of debit and credit, or with an amount
    that is not positive. *)
Definition invalid_entry (e : entry) : bool :=
  match debit e, credit e with
  | None, None => true
  | Some _, Some _ => true
  | Some x, None => x <=? 0
  | None, Some x => x <=? 0
  end.

(** An entry whose code is not in the accounts dict of the company. *)
Definition unknown_account (c : company) (e : entry) : Prop :=
  accounts c !! account e = None.

#[global] Instance unknown_account_dec c e : Decision (unknown_account c e).
Proof. unfold unknown_account. apply _. Defined.

(** A log whose ids are 1, 2, ... in order. *)
Definition sequential (log : list transaction) : Prop :=
  tx_id <$> log = seq 1 (length log).

(** The largest id of a log, 0 for the empty log. *)
Definition max_id (log : list transaction) : nat :=
  foldr (λ t n, Nat.max (tx_id t) n) 0%nat log.

(** The number of calls of a run that posted to [cid] and returned [True]. *)
Fixpoint successes (cid : string) (ps : list posting) (oks : list bool) : nat :=
  match ps, oks with
  | p :: ps', ok :: oks' =>
      ((if bool_decide (p_company p = cid) && ok then 1 else 0) + successes cid ps' oks')%nat
  | _, _ => 0%nat
  end.

(** Every line of every posting of [ps] to [cid] names a code of the
    standard chart. *)
Definition codes_in_chart (cid : string) (ps : list posting) : Prop :=
  Forall (λ p, p_company p = cid →
               Forall (λ e, is_Some (create_chart_of_accounts !! account e))
                 (p_entries p)) ps.

#[global] Instance codes_in_chart_dec cid ps : Decision (codes_in_chart cid ps).
Proof. unfold codes_in_chart. apply _. Defined.

(** ** Example inputs *)

Definition jan15 : date := Date 2024 1 15.

(** The cash sale of 15 January 2024: debit 1000 by 1200.00, credit 4000
    by 1000.00, credit 2100 by 200.00. *)
Definition cash_sale : list entry :=
  [ Entry "1000" (Some 120000) None;
    Entry "4000" None (Some 100000);
    Entry "2100" None (Some 20000) ].

(** Company 1 of a new session. *)
Definition company_1 : company :=
  Company "Tech Solutions Ltd" [] create_chart_of_accounts "#1E88E5".

(** Debits of 500.00 against credits of 400.00; a code that is not in
    the chart; one line with both sides; one line with neither side;
    amounts that are not positive. *)
Definition unbalanced_sale : list entry :=
  [ Entry "1000" (Some 50000) None; Entry "4000" None (Some 40000) ].

Definition unknown_code : list entry :=
  [ Entry "9999" (Some 10000) None; Entry "1000" None (Some 10000) ].

Definition both_sides : list entry := [ Entry "1000" (Some 10000) (Some 10000) ].

Definition neither_side : list entry := [ Entry "1000" None None ].

Definition negative_amounts : list entry :=
  [ Entry "1000" (Some (-5000)) None; Entry "4000" None (Some (-5000)) ].

(** A run of four postings: a cash sale, an unbalanced posting, a cash
    sale of the other company, and a second cash sale. *)
Definition example_run : list posting :=
  [ Posting "company_1" jan15 "Cash sale" cash_sale (1#5);
    Posting "company_1" jan15 "Sale" unbalanced_sale (1#5);
    Posting "company_2" jan15 "Cash sale" cash_sale 0;
    Posting "company_1" jan15 "Cash sale" cash_sale (1#20) ].

(** Closed decidable facts are settled by evaluating their decision
    procedure. *)
Ltac by_evaluation :=
  lazymatch goal with
  | |- ?P => apply (@bool_decide_unpack P _); vm_compute; exact I
  end.

(** * Properties *)

(** ** What the methods and pages do *)

Lemma self_companies_raises (self : MultiCompanyAccounting) (reg : registry) :
  self_companies self reg = (Raises AttributeError, reg).
Proof. reflexivity. Qed.

Section methods.
Variable self : MultiCompanyAccounting.
Variable reg : registry.

(** Both paths of the method end in [return False]: line 111 when the
    totals differ, line 138 after the lookup of line 116 (or 125) has
    raised. *)
Lemma record_transaction_eq (cid : string) (d : date) (desc : string)
    (es : list entry) (vat : Q) :
  record_transaction self cid d desc es vat reg = (Returns false, reg).
Proof.
  unfold record_transaction, try_except.
  by destruct (total_debits es =? total_credits es).
Qed.

Lemma get_account_balance_eq (cid : string) (ty : account_type) :
  get_account_balance self cid ty reg = (Raises AttributeError, reg).
Proof. reflexivity. Qed.

Lemma calculate_net_income_eq (cid : string) :
  calculate_net_income self cid reg = (Raises AttributeError, reg).
Proof. reflexivity. Qed.

Lemma generate_balance_sheet_eq (cid : string) :
  generate_balance_sheet self cid reg = (Raises AttributeError, reg).
Proof. reflexivity. Qed.

Lemma get_transaction_history_eq (cid : string) :
  get_transaction_history self cid reg = (Raises AttributeError, reg).
Proof. reflexivity. Qed.

Lemma post_eq (p : posting) : post self p reg = (Returns false, reg).
Proof. apply record_transaction_eq. Qed.
End methods.

(** The outcome of every method, for rewriting. *)
#[local] Hint Rewrite record_transaction_eq get_account_balance_eq
  calculate_net_income_eq generate_balance_sheet_eq get_transaction_history_eq
  post_eq : outcomes.

Lemma main_eq (session : option registry) (app_mode : string) (reset_1 reset_2 : bool) :
  main session app_mode reset_1 reset_2
  = (if bool_decide (app_mode ∈ app_modes) then Raises AttributeError else Returns tt,
     setup_session_state session).
Proof.
  destruct (decide (app_mode ∈ app_modes)) as [Hin|Hnin].
  - rewrite (bool_decide_eq_true_2 _ Hin). unfold app_modes in Hin.
    repeat (apply elem_of_cons in Hin as [->|Hin]; [reflexivity|]).
    by apply elem_of_nil in Hin.
  - rewrite (bool_decide_eq_false_2 _ Hnin).
    assert (Hne : ∀ m, m ∈ app_modes → app_mode ≠ m)
      by (intros m Hm ->; exact (Hnin Hm)).
    unfold main, MultiCompanyAccounting_init.
    rewrite !bool_decide_eq_false_2
      by (apply Hne; by_evaluation).
    reflexivity.
Qed.

Lemma state_after_eq (c : call) (reg : registry) : state_after c reg = reg.
Proof.
  destruct c; cbn [state_after]; autorewrite with outcomes; [reflexivity..|].
  by rewrite main_eq.
Qed.

(** No call changes the registry: the only one that can be reached is
    the registry of a new session. *)
Lemma reachable_fresh (reg : registry) : reachable reg → reg = fresh.
Proof.
  induction 1 as [|reg c _ IH]; [reflexivity|].
  by rewrite state_after_eq.
Qed.

Lemma post_all_eq (self : MultiCompanyAccounting) (reg : registry) (ps : list posting) :
  post_all self reg ps = (replicate (length ps) false, reg).
Proof.
  induction ps as [|p ps IH]; [reflexivity|].
  cbn [post_all length replicate]. autorewrite with outcomes. by rewrite IH.
Qed.

Lemma successes_none (cid : string) (ps : list posting) :
  successes cid ps (replicate (length ps) false) = 0%nat.
Proof.
  induction ps as [|p ps IH]; [reflexivity|].
  cbn [successes length replicate]. by rewrite andb_false_r, IH.
Qed.

(** ** The seed *)

Lemma seed_balances_zero :
  map_Forall (λ _ a, balance a = 0) create_chart_of_accounts.
Proof. by_evaluation. Qed.

Lemma seed_classes_follow_codes :
  map_Forall (λ code a, class_of_code code = Some (acct_type a))
    create_chart_of_accounts.
Proof. by_evaluation. Qed.

Lemma seed_class_total (ty : account_type) :
  class_total ty create_chart_of_accounts = 0.
Proof. destruct ty; vm_compute; exact eq_refl. Qed.

Lemma seed_accounting_equation : accounting_equation create_chart_of_accounts.
Proof. unfold accounting_equation. by rewrite !seed_class_total. Qed.

Lemma seed_signed_sum : signed_sum create_chart_of_accounts = 0.
Proof. unfold signed_sum. by rewrite !seed_class_total. Qed.

Lemma chart_of_lookup (accts : gmap string ledger_account) (code : string) :
  chart_of accts !! code = (λ a, (acct_name a, acct_type a)) <$> accts !! code.
Proof. apply lookup_fmap. Qed.

(** The companies of a new session. *)
Lemma fresh_lookup (cid : string) (c : company) :
  fresh !! cid = Some c →
  (cid = "company_1" ∧ c = company_1)
  ∨ (cid = "company_2"
     ∧ c = Company "Consulting Partners Ltd" [] create_chart_of_accounts "#FF6B00").
Proof.
  unfold fresh, setup_session_state. intros H.
  apply lookup_insert_Some in H as [[<- <-]|[_ H]]; [by left|].
  apply lookup_insert_Some in H as [[<- <-]|[_ H]]; [by right|].
  by rewrite lookup_empty in H.
Qed.

Lemma fresh_company (cid : string) (c : company) :
  fresh !! cid = Some c →
  accounts c = create_chart_of_accounts ∧ transactions c = [].
Proof. intros H. by destruct (fresh_lookup cid c H) as [[_ ->]|[_ ->]]. Qed.

Lemma reachable_company (reg : registry) (cid : string) (c : company) :
  reachable reg → reg !! cid = Some c →
  accounts c = create_chart_of_accounts ∧ transactions c = [].
Proof.
  intros Hr Hc. rewrite (reachable_fresh reg Hr) in Hc.
  exact (fresh_company cid c Hc).
Qed.

(** ** Rejected postings *)

(** C3. When the total of the debits differs from the total of the
    credits, [record_transaction] returns [False] and the registry after
    the call is the registry before it: no balance of any company has
    changed and no log has grown. *)
Theorem unbalanced_posting_changes_nothing
    (self : MultiCompanyAccounting) (reg : registry) (cid : string) (d : date)
    (desc : string) (es : list entry) (vat : Q) :
  total_debits es ≠ total_credits es →
  record_transaction self cid d desc es vat reg = (Returns false, reg).
Proof.
  intros H. apply Z.eqb_neq in H.
  unfold record_transaction, try_except. by rewrite H.
Qed.

Lemma unbalanced_posting_changes_nothing_witness :
  total_debits unbalanced_sale ≠ total_credits unbalanced_sale
  ∧ record_transaction Accounting "company_1" jan15 "Sale" unbalanced_sale (1#5) fresh
    = (Returns false, fresh).
Proof.
  assert (H : total_debits unbalanced_sale ≠ total_credits unbalanced_sale)
    by (vm_compute; discriminate).
  split; [exact H|].
  exact (unbalanced_posting_changes_nothing Accounting fresh "company_1" jan15 "Sale"
           unbalanced_sale (1#5) H).
Defined.





(** ** The cash sale *)

(** C6, what the code does.  The cash sale is balanced, and yet
    [record_transaction] returns [False] for it in every state and
    leaves the registry as it was: the lookup of line 116 raises and the
    handler of line 136 returns [False].  On a new session the Asset
    total and the Income total of the company are 0 before the call and
    0 after it. *)
Theorem cash_sale_is_not_posted :
  total_debits cash_sale = total_credits cash_sale
  ∧ (∀ self reg cid d desc vat,
       record_transaction self cid d desc cash_sale vat reg = (Returns false, reg))
  ∧ ∃ c',
      (record_transaction Accounting "company_1" jan15 "Cash sale" cash_sale (1#5) fresh).2
        !! "company_1" = Some c'
      ∧ class_total asset (accounts company_1) = 0
      ∧ class_total asset (accounts c') = 0
      ∧ class_total income (accounts company_1) = 0
      ∧ class_total income (accounts c') = 0.
Proof.
  split; [reflexivity|]. split; [intros; apply record_transaction_eq|].
  exists company_1. rewrite record_transaction_eq. cbn [snd].
  split; [vm_compute; exact eq_refl|].
  change (accounts company_1) with create_chart_of_accounts.
  by rewrite !seed_class_total.
Qed.

(** ** The accounting equation *)





(** ** The balance sheet *)


(** ** Transaction ids *)



(** ** Resetting a company *)



(** ** The VAT rate *)


(** ** Further properties of the methods, the pages and the session *)








(** X22. [setup_session_state] keeps the registry of a session that has
    one, so setting up twice is setting up once.  On a new session it
    makes exactly the companies [company_1], named Tech Solutions Ltd,
    and [company_2], named Consulting Partners Ltd, each with an empty
    log and the accounts of [create_chart_of_accounts]. *)
Theorem session_is_set_up_once (session : option registry) :
  (∀ companies, setup_session_state (Some companies) = companies)
  ∧ setup_session_state (Some (setup_session_state session)) = setup_session_state session
  ∧ dom (setup_session_state None) = {["company_1"; "company_2"]}
  ∧ setup_session_state None !! "company_1"
    = Some (Company "Tech Solutions Ltd" [] create_chart_of_accounts "#1E88E5")
  ∧ setup_session_state None !! "company_2"
    = Some (Company "Consulting Partners Ltd" [] create_chart_of_accounts "#FF6B00").
Proof.
  split; [reflexivity|]. split; [reflexivity|].
  split; [|split; vm_compute; exact eq_refl].
  unfold setup_session_state. rewrite !dom_insert_L, dom_empty_L.
  by rewrite (right_id_L ∅ (∪)).
Qed.

(** ** The chart and the classes *)

(** X18. In every registry that the application can reach, and more
    generally for every company whose accounts have the codes, names and
    classes of the seed, the company has the 23 accounts of the seed
    under the codes of the seed, and the class of an account is the one
    that the leading digit of its code announces: 1 Asset, 2 Liability,
    3 Equity, 4 Income, 5 Expense. *)
Theorem classes_follow_codes (reg : registry) (cid : string) (c : company) :
  reachable reg ∨ standard_chart (accounts c) →
  reg !! cid = Some c →
  size (accounts c) = 23%nat
  ∧ dom (accounts c) = list_to_set (chart_rows.*1)
  ∧ ∀ code a, accounts c !! code = Some a → class_of_code code = Some (acct_type a).
Proof.
  intros Hr Hc.
  assert (Hstd : standard_chart (accounts c)).
  { destruct Hr as [Hr|Hstd]; [|exact Hstd].
    destruct (reachable_company reg cid c Hr Hc) as [-> _]. reflexivity. }
  unfold standard_chart in Hstd. split; [|split].
  - rewrite <- (map_size_fmap (λ a, (acct_name a, acct_type a)) (accounts c)).
    fold (chart_of (accounts c)). rewrite Hstd. vm_compute. exact eq_refl.
  - rewrite <- (dom_fmap_L (λ a, (acct_name a, acct_type a)) (accounts c)).
    fold (chart_of (accounts c)). rewrite Hstd. unfold chart_of.
    rewrite dom_fmap_L. unfold create_chart_of_accounts.
    apply dom_list_to_map_L.
  - intros code a Ha.
    assert (H : chart_of create_chart_of_accounts !! code
                = Some (acct_name a, acct_type a)).
    { rewrite <- Hstd, chart_of_lookup, Ha. done. }
    rewrite chart_of_lookup in H.
    destruct (create_chart_of_accounts !! code) as [a0|] eqn:Ha0; [|done].
    cbn in H. injection H as _ <-.
    exact (seed_classes_follow_codes code a0 Ha0).
Qed.

Lemma classes_follow_codes_witness :
  (reachable (state_after (call_record_transaction "company_1" jan15 "Cash sale"
                             cash_sale (1#5)) fresh)
   ∨ standard_chart (accounts company_1))
  ∧ state_after (call_record_transaction "company_1" jan15 "Cash sale"
                   cash_sale (1#5)) fresh !! "company_1" = Some company_1
  ∧ size (accounts company_1) = 23%nat.
Proof.
  assert (H1 : reachable (state_after (call_record_transaction "company_1" jan15
                                         "Cash sale" cash_sale (1#5)) fresh)
               ∨ standard_chart (accounts company_1))
    by (left; apply reach_call, reach_fresh).
  assert (H2 : state_after (call_record_transaction "company_1" jan15 "Cash sale"
                              cash_sale (1#5)) fresh !! "company_1" = Some company_1)
    by (vm_compute; exact eq_refl).
  split; [exact H1|]. split; [exact H2|].
  exact (proj1 (classes_follow_codes _ "company_1" company_1 H1 H2)).
Defined.
